(** * The finder of a screen-automation tool: [src/core/finder/finder.py]

    A shallow embedding of [highlight], [find], [find_all], [verify],
    [exists] and [wait_vanish], and the properties of their match-and-wait
    logic: which error each one raises, how defaults are filled in, and how
    the single-match and the multi-match lookups relate.

    The finder is glue over collaborators that live in other modules
    (the template matcher, the text search, the overlay renderer, the
    settings and the command line).  They are gathered in a record [Env];
    every theorem holds for every [Env].  Each call the finder makes to a
    collaborator is written to a log, in program order, with the arguments
    it was given. *)

From Stdlib Require Import String List ZArith QArith Bool Lia.
Import ListNotations.

Local Open Scope list_scope.
Local Open Scope string_scope.

(** ** Data *)

(** [core.helpers.location.Location]: a point of the screen. *)
Record Location : Type := mkLocation {
  Location_x : Z;
  Location_y : Z
}.

(** [core.helpers.rectangle.Rectangle]: the area a search is restricted to. *)
Record Rectangle : Type := mkRectangle {
  Rectangle_x : Z;
  Rectangle_y : Z;
  Rectangle_width : Z;
  Rectangle_height : Z
}.

(** [core.finder.pattern.Pattern], through the two methods the finder calls:
    [get_filename()] and [get_size()], the latter a pair (width, height). *)
Record Pattern : Type := mkPattern {
  get_filename : string;
  get_size : Z * Z
}.

(** [core.enums.MatchTemplateType]. *)
Inductive MatchTemplateType : Type := SINGLE | MULTIPLE.

(** A colour as it is handed to the canvas ([Color.WHITE.value],
    [Settings.highlight_color]). *)
Definition Color : Type := string.

(** [HighlightRectangle(x, y, width, height, color)]. *)
Record HighlightRectangle : Type := mkHighlightRectangle {
  hr_x : Z;
  hr_y : Z;
  hr_width : Z;
  hr_height : Z;
  hr_color : Color
}.

(** The objects a caller can pass where the finder expects
    [ps: Pattern or str]: Python checks nothing at the call. *)
#[warnings="-register-all"]
Inductive value : Type :=
| VNone
| VBool (b : bool)
| VInt (z : Z)
| VFloat (q : Q)
| VStr (s : string)
| VPattern (p : Pattern)
| VLocation (l : Location)
| VRectangle (r : Rectangle)
| VList (vs : list value).

Definition isinstance_Pattern (v : value) : bool :=
  match v with VPattern _ => true | _ => false end.

Definition isinstance_str (v : value) : bool :=
  match v with VStr _ => true | _ => false end.

(** What [highlight] receives as [location]: nothing (the default), the
    list of a template match ([find], [find_all]), or the one location of
    [image_find] ([verify]). *)
Inductive location_arg : Type :=
| LNone
| LOne (l : Location)
| LSeq (ls : list Location).

(** ** Exceptions *)

Inductive exn : Type :=
| FindError (msg : string)
| ValueError (msg : string)
| TypeError (msg : string)
| IndexError (msg : string)
| AttributeError (msg : string)
| OverflowError (msg : string).

Definition is_FindError (e : exn) : bool :=
  match e with FindError _ => true | _ => false end.

Inductive outcome (A : Type) : Type :=
| Returns (a : A)
| Raises (e : exn).

Arguments Returns {A} a.
Arguments Raises {A} e.

(** ** The log of collaborator calls *)

Inductive event : Type :=
| Ematch_template (p : Pattern) (region : option Rectangle) (ty : MatchTemplateType)
| Eimage_find (p : Pattern) (timeout : Q) (region : option Rectangle)
| Eimage_vanish (p : Pattern) (timeout : Q) (region : option Rectangle)
| Etext_search (s : string) (wait : bool) (region : option Rectangle)
| EScreenHighlight
| Edraw_rectangle (r : HighlightRectangle)
| Ecreate_text (tx ty : Z) (anchor text : string) (fill : Color)
| Ecanvas_bbox
| Ecreate_rectangle (fill outline : Color)
| Etag_lower
| Erender (seconds : Q)
| Esleep (seconds : Q).

(** ** The monad: a log and a result or an exception *)

Definition M (A : Type) : Type := (list event * outcome A)%type.

Definition calls {A} (m : M A) : list event := fst m.
Definition result {A} (m : M A) : outcome A := snd m.

Definition ret {A} (a : A) : M A := ([], Returns a).

Definition raise {A} (e : exn) : M A := ([], Raises e).

Definition call (ev : event) : M unit := ([ev], Returns tt).

Definition bind {A B} (m : M A) (k : A -> M B) : M B :=
  match m with
  | (t, Returns a) => let (t', o) := k a in ((t ++ t')%list, o)
  | (t, Raises e) => (t, Raises e)
  end.

Notation "x <- m ;; k" := (bind m (fun x => k))
  (at level 61, m at next level, right associativity).
Notation "m ;; k" := (bind m (fun _ => k))
  (at level 61, right associativity).

(** [try: body except FindError: handler]. *)
Definition try_except_FindError {A} (body handler : M A) : M A :=
  match body with
  | (t, Raises (FindError _)) => let (t', o) := handler in ((t ++ t')%list, o)
  | _ => body
  end.

(** [for x in xs: body(x)]. *)
Fixpoint for_each {A} (xs : list A) (body : A -> M unit) : M unit :=
  match xs with
  | [] => ret tt
  | a :: rest => body a ;; for_each rest body
  end.

(** [time.sleep] converts its argument to a signed 64-bit count of
    nanoseconds before it looks at the sign. *)
Definition SEC_TO_NS : Z := 10 ^ 9.
Definition PyTime_MIN : Z := - 2 ^ 63.
Definition PyTime_MAX : Z := 2 ^ 63 - 1.

(** The duration, in nanoseconds, fits the 64 bits.  A duration is read as
    the rational that the Python number denotes, which is exact for an int;
    for a float the interpreter forms the product in double precision, which
    can move either bound by one unit in the last place. *)
Definition fits_PyTime (seconds : Q) : bool :=
  Qle_bool (inject_Z PyTime_MIN) (seconds * inject_Z SEC_TO_NS)
  && Qle_bool (seconds * inject_Z SEC_TO_NS) (inject_Z PyTime_MAX).

(** [time.sleep(seconds)]: the standard library refuses a length that does
    not fit with OverflowError, and then a negative length with ValueError. *)
Definition time_sleep (seconds : Q) : M unit :=
  if fits_PyTime seconds then
    if Qle_bool 0 seconds then call (Esleep seconds)
    else raise (ValueError "sleep length must be non-negative")
  else raise (OverflowError "timestamp too large to convert to C _PyTime_t").

(** ** The collaborators *)

(** Everything [finder.py] imports and consults.  The matcher and the text
    search are functions of their arguments: the screen is the same for
    every call made in one [Env].

    - [auto_wait_timeout], [highlight_color], [highlight_duration]:
      the attributes of [core.settings.Settings];
    - [args_highlight]: [parse_args().highlight];
    - [match_template], [image_find], [image_vanish]:
      [core.finder.image_search]; [image_vanish] hands back some object or
      [None], and the finder only tests it against [None];
    - [text_search]: [TextSearch().text_search];
    - [Color_WHITE_value]: [Color.WHITE.value];
    - [iter_Location]: what [for loc in l] does for a single [Location] [l];
      the class is defined in [core.helpers.location]. *)
Record Env : Type := mkEnv {
  auto_wait_timeout : Q;
  highlight_color : Color;
  highlight_duration : Q;
  args_highlight : bool;
  match_template : Pattern -> option Rectangle -> MatchTemplateType -> list Location;
  image_find : Pattern -> Q -> option Rectangle -> option Location;
  image_vanish : Pattern -> Q -> option Rectangle -> option value;
  text_search : string -> bool -> option Rectangle -> option Location;
  Color_WHITE_value : Color;
  iter_Location : Location -> outcome (list Location)
}.

(** [iter(location)] at the head of the loop of [highlight]. *)
Definition iterate (w : Env) (location : location_arg) : M (list Location) :=
  match location with
  | LSeq ls => ret ls
  | LOne l => ([], iter_Location w l)
  | LNone => raise (TypeError "'NoneType' object is not iterable")
  end.

(** ** The finder *)

Definition highlight (w : Env) (region : option Rectangle) (seconds : option Q)
    (color : option Color) (pattern : option Pattern) (location : location_arg)
    : M unit :=
  let color := match color with None => highlight_color w | Some c => c end in
  let seconds := match seconds with None => highlight_duration w | Some s => s end in
  call EScreenHighlight ;;
  match region with
  | Some rg =>
      call (Edraw_rectangle
              (mkHighlightRectangle (Rectangle_x rg) (Rectangle_y rg)
                 (Rectangle_width rg) (Rectangle_height rg) color)) ;;
      call (Ecreate_text (Rectangle_x rg) (Rectangle_y rg) "nw" "Region"
              (Color_WHITE_value w)) ;;
      call Ecanvas_bbox ;;
      call (Ecreate_rectangle color color) ;;
      call Etag_lower
  | None => ret tt
  end ;;
  match pattern with
  | Some p =>
      let '(width, height) := get_size p in
      locs <- iterate w location ;;
      for_each locs (fun loc =>
        call (Edraw_rectangle
                (mkHighlightRectangle (Location_x loc) (Location_y loc)
                   width height color)))
  | None => ret tt
  end ;;
  call (Erender seconds) ;;
  time_sleep seconds.

Definition find (w : Env) (ps : value) (region : option Rectangle)
    : M (option Location) :=
  match ps with
  | VPattern p =>
      call (Ematch_template p region SINGLE) ;;
      let image_found := match_template w p region SINGLE in
      if (0 <? length image_found)%nat then
        (if args_highlight w
         then highlight w region None None (Some p) (LSeq image_found)
         else ret tt) ;;
        match nth_error image_found 0 with
        | Some l => ret (Some l)
        | None => raise (IndexError "list index out of range")
        end
      else raise (FindError ("Unable to find image " ++ get_filename p))
  | _ => ret None
  end.

(** [find_all] hands its argument to [match_template] unchecked and then
    calls [get_filename()] on it: it is embedded on [Pattern]s. *)
Definition find_all (w : Env) (pattern : Pattern) (region : option Rectangle)
    : M (list Location) :=
  call (Ematch_template pattern region MULTIPLE) ;;
  let images_found := match_template w pattern region MULTIPLE in
  if (0 <? length images_found)%nat then
    (if args_highlight w
     then highlight w region None None (Some pattern) (LSeq images_found)
     else ret tt) ;;
    ret images_found
  else raise (FindError ("Unable to find image " ++ get_filename pattern)).

Definition verify (w : Env) (ps : value) (timeout : option Q)
    (region : option Rectangle) : M bool :=
  match ps with
  | VPattern p =>
      let timeout :=
        match timeout with None => auto_wait_timeout w | Some t => t end in
      call (Eimage_find p timeout region) ;;
      match image_find w p timeout region with
      | Some image_found =>
          (if args_highlight w
           then highlight w region None None (Some p) (LOne image_found)
           else ret tt) ;;
          ret true
      | None => raise (FindError ("Unable to find image " ++ get_filename p))
      end
  | VStr s =>
      call (Etext_search s true region) ;;
      match text_search w s true region with
      | Some _ => ret true
      | None => raise (FindError ("Unable to find text " ++ s))
      end
  | _ => raise (ValueError "Invalid input")
  end.

Definition exists_ (w : Env) (ps : value) (timeout : option Q)
    (region : option Rectangle) : M bool :=
  let timeout :=
    match timeout with None => auto_wait_timeout w | Some t => t end in
  try_except_FindError
    (verify w ps (Some timeout) region ;; ret true)
    (ret false).

Definition wait_vanish (w : Env) (pattern : Pattern) (timeout : option Q)
    (region : option Rectangle) : M bool :=
  let timeout :=
    match timeout with None => auto_wait_timeout w | Some t => t end in
  call (Eimage_vanish pattern timeout region) ;;
  match image_vanish w pattern timeout region with
  | Some _ => ret true
  | None => raise (FindError (get_filename pattern ++ " did not vanish"))
  end.

(** ** Reading an error message *)

(** [contains needle hay]: [needle] occurs in [hay]. *)
Fixpoint contains (needle hay : string) : bool :=
  String.prefix needle hay ||
  match hay with
  | EmptyString => false
  | String _ rest => contains needle rest
  end.

(** The outcome is a [FindError] whose message holds [name]. *)
Definition raises_FindError_naming {A} (name : string) (o : outcome A) : Prop :=
  exists msg, o = Raises (FindError msg) /\ contains name msg = true.

(** ** Sample screens *)

Module Sample.

Definition button : Pattern := mkPattern "button.png" (40, 20)%Z.

Definition area : Rectangle := mkRectangle 0 0 800 600.

(** A plain class has no [__iter__]. *)
Definition not_iterable (l : Location) : outcome (list Location) :=
  Raises (TypeError "'Location' object is not iterable").

(** Nothing matches, nothing vanishes, highlighting is off. *)
Definition blank : Env :=
  mkEnv (3 # 1) "#ff0000" (2 # 1) false
    (fun _ _ _ => [])
    (fun _ _ _ => None)
    (fun _ _ _ => None)
    (fun _ _ _ => None)
    "#ffffff"
    not_iterable.

(** Two places match the template.  The better one is at (100, 100); a
    scan from the top left meets the one at (10, 10) first.  In [SINGLE]
    mode the matcher gives the best match, in [MULTIPLE] mode every match
    in scan order. *)
Definition two_matches (highlighting : bool) : Env :=
  mkEnv (3 # 1) "#ff0000" (2 # 1) highlighting
    (fun _ _ ty =>
       match ty with
       | SINGLE => [mkLocation 100 100]
       | MULTIPLE => [mkLocation 10 10; mkLocation 100 100]
       end)
    (fun _ _ _ => Some (mkLocation 100 100))
    (fun _ _ _ => Some (VBool true))
    (fun _ _ _ => Some (mkLocation 7 7))
    "#ffffff"
    not_iterable.

(** One place matches, in both modes. *)
Definition one_match (highlighting : bool) (duration : Q) : Env :=
  mkEnv (3 # 1) "#ff0000" duration highlighting
    (fun _ _ _ => [mkLocation 100 100])
    (fun _ _ _ => Some (mkLocation 100 100))
    (fun _ _ _ => Some (VBool true))
    (fun _ _ _ => Some (mkLocation 7 7))
    "#ffffff"
    not_iterable.

End Sample.

(** ** Vocabulary of the properties *)

(** The timeout a waiting operation works with. *)
Definition effective_timeout (w : Env) (timeout : option Q) : Q :=
  match timeout with None => auto_wait_timeout w | Some t => t end.

(** The duration and the colour [highlight] works with. *)
Definition effective_seconds (w : Env) (seconds : option Q) : Q :=
  match seconds with None => highlight_duration w | Some s => s end.

Definition effective_color (w : Env) (color : option Color) : Color :=
  match color with None => highlight_color w | Some c => c end.

(** What [highlight] draws for the region and for the matches. *)
Definition region_events (w : Env) (region : option Rectangle) (c : Color)
    : list event :=
  match region with
  | Some rg =>
      [Edraw_rectangle
         (mkHighlightRectangle (Rectangle_x rg) (Rectangle_y rg)
            (Rectangle_width rg) (Rectangle_height rg) c);
       Ecreate_text (Rectangle_x rg) (Rectangle_y rg) "nw" "Region"
         (Color_WHITE_value w);
       Ecanvas_bbox;
       Ecreate_rectangle c c;
       Etag_lower]
  | None => []
  end.

Definition match_events (p : Pattern) (c : Color) (ls : list Location)
    : list event :=
  map (fun loc =>
         Edraw_rectangle
           (mkHighlightRectangle (Location_x loc) (Location_y loc)
              (fst (get_size p)) (snd (get_size p)) c))
      ls.

(** [time.sleep] accepts the duration: it fits and it is not negative. *)
Definition sleep_accepts (seconds : Q) : bool :=
  fits_PyTime seconds && Qle_bool 0 seconds.



(** How the optional highlight of [find] and [find_all] ends: it is off, or
    it ends as the sleep for the configured duration ends. *)
Definition optional_highlight_outcome (w : Env) : outcome unit :=
  if args_highlight w then result (time_sleep (highlight_duration w))
  else Returns tt.


(** The rectangles a log draws, in the order they are drawn. *)
Fixpoint drawn (log : list event) : list HighlightRectangle :=
  match log with
  | [] => []
  | Edraw_rectangle r :: rest => r :: drawn rest
  | _ :: rest => drawn rest
  end.

(** The rectangle over the region and the rectangles over the matches. *)
Definition region_rectangle (region : option Rectangle) (c : Color)
    : list HighlightRectangle :=
  match region with
  | Some rg =>
      [mkHighlightRectangle (Rectangle_x rg) (Rectangle_y rg)
         (Rectangle_width rg) (Rectangle_height rg) c]
  | None => []
  end.

Definition match_rectangles (p : Pattern) (c : Color) (ls : list Location)
    : list HighlightRectangle :=
  map (fun loc =>
         mkHighlightRectangle (Location_x loc) (Location_y loc)
           (fst (get_size p)) (snd (get_size p)) c)
      ls.

(** An event of the overlay: anything but a call of the matcher or of the
    text search. *)
Definition is_overlay (ev : event) : bool :=
  match ev with
  | Ematch_template _ _ _ | Eimage_find _ _ _ | Eimage_vanish _ _ _
  | Etext_search _ _ _ => false
  | _ => true
  end.

(** What a log asks of the screen: its calls of the matcher and of the text
    search. *)
Definition screen_calls (log : list event) : list event :=
  filter (fun ev => negb (is_overlay ev)) log.

Definition is_Some {A} (o : option A) : bool :=
  match o with Some _ => true | None => false end.

(** * Properties *)

(** ** Sample runs *)

(** One match, highlighting on: [find] asks the matcher once, draws the
    region and the match, shows the overlay for the configured two seconds
    and returns the location. *)
Example find_one_match_highlighted :
  find (Sample.one_match true (2 # 1)) (VPattern Sample.button) (Some Sample.area)
  = ([Ematch_template Sample.button (Some Sample.area) SINGLE;
      EScreenHighlight;
      Edraw_rectangle (mkHighlightRectangle 0 0 800 600 "#ff0000");
      Ecreate_text 0 0 "nw" "Region" "#ffffff";
      Ecanvas_bbox;
      Ecreate_rectangle "#ff0000" "#ff0000";
      Etag_lower;
      Edraw_rectangle (mkHighlightRectangle 100 100 40 20 "#ff0000");
      Erender (2 # 1);
      Esleep (2 # 1)],
     Returns (Some (mkLocation 100 100))).
Proof. reflexivity. Qed.

(** Nothing on the screen: [exists] waits the configured three seconds and
    answers False where [verify] raises. *)
Example exists_on_a_blank_screen :
  exists_ Sample.blank (VPattern Sample.button) None None
  = ([Eimage_find Sample.button (3 # 1) None], Returns false).
Proof. reflexivity. Qed.

Example verify_on_a_blank_screen :
  verify Sample.blank (VPattern Sample.button) None None
  = ([Eimage_find Sample.button (3 # 1) None],
     Raises (FindError "Unable to find image button.png")).
Proof. reflexivity. Qed.

(** [verify] hands the one Location of [image_find] to [highlight] as
    [location]; with highlighting on and a Location class that defines no
    iteration, the loop of [highlight] raises and [exists] passes the error
    on. *)
Example verify_highlights_a_single_Location :
  result (verify (Sample.one_match true (2 # 1)) (VPattern Sample.button) None None)
    = Raises (TypeError "'Location' object is not iterable")
  /\ result (exists_ (Sample.one_match true (2 # 1)) (VPattern Sample.button)
               None None)
    = Raises (TypeError "'Location' object is not iterable").
Proof. split; reflexivity. Qed.

(** A negative duration is refused by [time.sleep], after the overlay was
    rendered. *)
Example highlight_with_a_negative_duration :
  highlight Sample.blank None (Some (-1 # 1)) None None LNone
  = ([EScreenHighlight; Erender (-1 # 1)],
     Raises (ValueError "sleep length must be non-negative")).
Proof. reflexivity. Qed.

(** [time.sleep] at the ends of its range, for whole seconds: the longest
    and the most negative length that fit are 9223372036 seconds. *)
Example time_sleep_at_the_ends_of_its_range :
  time_sleep (9223372036 # 1) = ([Esleep (9223372036 # 1)], Returns tt)
  /\ time_sleep (9223372037 # 1)
     = ([], Raises (OverflowError "timestamp too large to convert to C _PyTime_t"))
  /\ time_sleep (-9223372036 # 1)
     = ([], Raises (ValueError "sleep length must be non-negative"))
  /\ time_sleep (-9223372037 # 1)
     = ([], Raises (OverflowError "timestamp too large to convert to C _PyTime_t")).
Proof. repeat split; vm_compute; reflexivity. Qed.

(** ** Error messages *)

Lemma prefix_app (a b : string) : String.prefix a (a ++ b)%string = true.
Proof.
  induction a as [|c a IH]; simpl.
  - now destruct b.
  - destruct (Ascii.ascii_dec c c) as [_|ne]; [exact IH | now elim ne].
Qed.

Lemma contains_prefix (a b : string) : contains a (a ++ b)%string = true.
Proof.
  pose proof (prefix_app a b) as P.
  destruct (a ++ b)%string; cbn [contains]; rewrite P; reflexivity.
Qed.

Lemma contains_app (pre a b : string) :
  contains a (pre ++ a ++ b)%string = true.
Proof.
  induction pre as [|c pre IH]; simpl.
  - apply contains_prefix.
  - rewrite IH. apply orb_true_r.
Qed.

Lemma contains_suffix (pre a : string) : contains a (pre ++ a)%string = true.
Proof.
  replace (pre ++ a)%string with (pre ++ a ++ "")%string.
  - apply contains_app.
  - f_equal. induction a as [|c a IH]; simpl; [reflexivity | now rewrite IH].
Qed.

(** ** Running the monad *)

Lemma result_bind {A B} (m : M A) (k : A -> M B) :
  result (bind m k) =
  match result m with
  | Returns a => result (k a)
  | Raises e => Raises e
  end.
Proof.
  destruct m as [t [a|e]]; simpl; [destruct (k a) | ]; reflexivity.
Qed.

Lemma calls_bind {A B} (m : M A) (k : A -> M B) :
  calls (bind m k) =
  match result m with
  | Returns a => (calls m ++ calls (k a))%list
  | Raises e => calls m
  end.
Proof.
  destruct m as [t [a|e]]; simpl; [destruct (k a) | ]; reflexivity.
Qed.

Lemma bind_ret_l {A B} (a : A) (k : A -> M B) : bind ([], Returns a) k = k a.
Proof. unfold bind. destruct (k a). reflexivity. Qed.

(** ** Nothing found *)

(** C1: when the template match of a Pattern yields no location, [find]
    raises FindError and [find_all] raises FindError, and each message
    holds the pattern's filename. *)
Theorem find_and_find_all_raise_FindError_when_no_match
    (w : Env) (p : Pattern) (region : option Rectangle) :
  (match_template w p region SINGLE = [] ->
     result (find w (VPattern p) region)
       = Raises (FindError ("Unable to find image " ++ get_filename p))
     /\ raises_FindError_naming (get_filename p)
          (result (find w (VPattern p) region)))
  /\
  (match_template w p region MULTIPLE = [] ->
     result (find_all w p region)
       = Raises (FindError ("Unable to find image " ++ get_filename p))
     /\ raises_FindError_naming (get_filename p)
          (result (find_all w p region))).
Proof.
  split; intros E.
  - assert (R : result (find w (VPattern p) region)
                = Raises (FindError ("Unable to find image " ++ get_filename p))).
    { unfold find. rewrite result_bind. simpl. rewrite E. reflexivity. }
    split; [exact R|].
    exists ("Unable to find image " ++ get_filename p).
    split; [exact R | apply contains_suffix].
  - assert (R : result (find_all w p region)
                = Raises (FindError ("Unable to find image " ++ get_filename p))).
    { unfold find_all. rewrite result_bind. simpl. rewrite E. reflexivity. }
    split; [exact R|].
    exists ("Unable to find image " ++ get_filename p).
    split; [exact R | apply contains_suffix].
Qed.

Lemma find_and_find_all_raise_FindError_when_no_match_witness :
  raises_FindError_naming "button.png"
    (result (find Sample.blank (VPattern Sample.button) (Some Sample.area)))
  /\
  raises_FindError_naming "button.png"
    (result (find_all Sample.blank Sample.button (Some Sample.area))).
Proof.
  destruct (find_and_find_all_raise_FindError_when_no_match
              Sample.blank Sample.button (Some Sample.area)) as [F FA].
  split.
  - apply F. reflexivity.
  - apply FA. reflexivity.
Defined.

(** ** The overlay *)

Lemma for_each_call {A} (f : A -> event) (xs : list A) :
  for_each xs (fun a => call (f a)) = (map f xs, Returns tt).
Proof.
  induction xs as [|a xs IH]; simpl; [reflexivity | now rewrite IH].
Qed.

Lemma time_sleep_calls (s : Q) :
  calls (time_sleep s) = if sleep_accepts s then [Esleep s] else [].
Proof.
  unfold time_sleep, sleep_accepts.
  destruct (fits_PyTime s), (Qle_bool 0 s); reflexivity.
Qed.

Lemma time_sleep_result (s : Q) :
  result (time_sleep s) =
  if fits_PyTime s then
    if Qle_bool 0 s then Returns tt
    else Raises (ValueError "sleep length must be non-negative")
  else Raises (OverflowError "timestamp too large to convert to C _PyTime_t").
Proof.
  unfold time_sleep. destruct (fits_PyTime s), (Qle_bool 0 s); reflexivity.
Qed.

Lemma time_sleep_returns (s : Q) :
  result (time_sleep s) = Returns tt <-> sleep_accepts s = true.
Proof.
  rewrite time_sleep_result. unfold sleep_accepts.
  destruct (fits_PyTime s), (Qle_bool 0 s); simpl; split;
    try discriminate; reflexivity.
Qed.



Lemma negative_is_not_accepted (s : Q) : (s < 0)%Q -> Qle_bool 0 s = false.
Proof.
  intros Neg. destruct (Qle_bool 0 s) eqn:E; [|reflexivity].
  apply Qle_bool_iff in E. exfalso. exact (Qlt_not_le _ _ Neg E).
Qed.

(** [highlight] in one piece: the log and the result it ends with. *)
Lemma highlight_run (w : Env) (region : option Rectangle) (seconds : option Q)
    (color : option Color) (pattern : option Pattern) (location : location_arg) :
  let c := effective_color w color in
  let s := effective_seconds w seconds in
  highlight w region seconds color pattern location =
  match pattern with
  | None =>
      ((EScreenHighlight :: region_events w region c)
         ++ Erender s :: calls (time_sleep s),
       result (time_sleep s))%list
  | Some p =>
      match result (iterate w location) with
      | Returns ls =>
          ((EScreenHighlight :: region_events w region c)
             ++ match_events p c ls ++ Erender s :: calls (time_sleep s),
           result (time_sleep s))%list
      | Raises e => (EScreenHighlight :: region_events w region c, Raises e)
      end
  end.
Proof.
  unfold highlight, effective_color, effective_seconds, match_events.
  destruct pattern as [p|].
  - destruct (get_size p) as [width height] eqn:S. cbn [fst snd].
    destruct location as [|l|ls]; unfold iterate, result, raise, ret;
      cbn [snd].
    + destruct region; reflexivity.
    + destruct (iter_Location w l) as [ls|e].
      * rewrite bind_ret_l, for_each_call.
        destruct (time_sleep _) as [t o]. destruct region; reflexivity.
      * destruct region; reflexivity.
    + rewrite bind_ret_l, for_each_call.
      destruct (time_sleep _) as [t o]. destruct region; reflexivity.
  - destruct (time_sleep _) as [t o]. destruct region; reflexivity.
Qed.

Lemma highlight_result (w : Env) (region : option Rectangle) (seconds : option Q)
    (color : option Color) (pattern : option Pattern) (location : location_arg) :
  result (highlight w region seconds color pattern location) =
  match match pattern with
        | None => Returns []
        | Some _ => result (iterate w location)
        end with
  | Returns _ => result (time_sleep (effective_seconds w seconds))
  | Raises e => Raises e
  end.
Proof.
  rewrite highlight_run.
  destruct pattern as [p|]; [|reflexivity].
  destruct (result (iterate w location)); reflexivity.
Qed.

(** The log of [highlight] on a sequence of locations. *)
Lemma highlight_calls (w : Env) (region : option Rectangle) (seconds : option Q)
    (color : option Color) (pattern : option Pattern) (ls : list Location) :
  calls (highlight w region seconds color pattern (LSeq ls)) =
  ((EScreenHighlight :: region_events w region (effective_color w color))
     ++ match pattern with
        | Some p => match_events p (effective_color w color) ls
        | None => []
        end
     ++ Erender (effective_seconds w seconds)
        :: (if sleep_accepts (effective_seconds w seconds)
            then [Esleep (effective_seconds w seconds)] else []))%list.
Proof.
  rewrite highlight_run. cbv zeta. rewrite time_sleep_calls.
  destruct pattern; reflexivity.
Qed.

Lemma drawn_app (l1 l2 : list event) :
  drawn (l1 ++ l2)%list = (drawn l1 ++ drawn l2)%list.
Proof.
  induction l1 as [|ev l1 IH]; [reflexivity|].
  destruct ev; simpl; rewrite IH; reflexivity.
Qed.

Lemma drawn_region_events (w : Env) (region : option Rectangle) (c : Color) :
  drawn (region_events w region c) = region_rectangle region c.
Proof. destruct region; reflexivity. Qed.

Lemma drawn_match_events (p : Pattern) (c : Color) (ls : list Location) :
  drawn (match_events p c ls) = match_rectangles p c ls.
Proof.
  induction ls as [|l ls IH]; simpl; [reflexivity | now rewrite IH].
Qed.

Lemma drawn_highlight (w : Env) (region : option Rectangle)
    (seconds : option Q) (color : option Color) (pattern : option Pattern)
    (ls : list Location) :
  drawn (calls (highlight w region seconds color pattern (LSeq ls)))
    = (region_rectangle region (effective_color w color)
       ++ match pattern with
          | Some p => match_rectangles p (effective_color w color) ls
          | None => []
          end)%list.
Proof.
  rewrite highlight_calls.
  change (EScreenHighlight :: region_events w region ?c)
    with ([EScreenHighlight] ++ region_events w region c)%list.
  rewrite !drawn_app, drawn_region_events.
  destruct pattern as [p|]; rewrite ?drawn_match_events;
    destruct (sleep_accepts _); cbn [drawn app]; rewrite ?app_nil_r;
    reflexivity.
Qed.

Lemma region_events_neither_render_nor_sleep (w : Env)
    (region : option Rectangle) (c : Color) (ev : event) :
  In ev (region_events w region c) ->
  match ev with Erender _ | Esleep _ => False | _ => True end.
Proof.
  destruct region as [rg|]; simpl; [|tauto].
  intros [<-|[<-|[<-|[<-|[<-|[]]]]]]; exact I.
Qed.

Lemma match_events_neither_render_nor_sleep (p : Pattern) (c : Color)
    (ls : list Location) (ev : event) :
  In ev (match_events p c ls) ->
  match ev with Erender _ | Esleep _ => False | _ => True end.
Proof.
  intros H. apply in_map_iff in H. destruct H as [loc [<- _]]. exact I.
Qed.








(** ** Single and multiple lookup *)

Lemma optional_highlight_result (w : Env) (region : option Rectangle)
    (p : Pattern) (ls : list Location) :
  result (if args_highlight w
          then highlight w region None None (Some p) (LSeq ls)
          else ret tt) =
  optional_highlight_outcome w.
Proof.
  unfold optional_highlight_outcome.
  destruct (args_highlight w); [|reflexivity].
  rewrite highlight_result. reflexivity.
Qed.

Lemma find_result (w : Env) (p : Pattern) (region : option Rectangle) :
  result (find w (VPattern p) region) =
  match match_template w p region SINGLE with
  | [] => Raises (FindError ("Unable to find image " ++ get_filename p))
  | l :: _ =>
      match optional_highlight_outcome w with
      | Returns _ => Returns (Some l)
      | Raises e => Raises e
      end
  end.
Proof.
  unfold find. rewrite result_bind. cbn [result call snd].
  destruct (match_template w p region SINGLE) as [|l ls]; [reflexivity|].
  cbn [length Nat.ltb Nat.leb nth_error].
  rewrite result_bind, optional_highlight_result.
  destruct (optional_highlight_outcome w); reflexivity.
Qed.

Lemma find_all_result (w : Env) (p : Pattern) (region : option Rectangle) :
  result (find_all w p region) =
  match match_template w p region MULTIPLE with
  | [] => Raises (FindError ("Unable to find image " ++ get_filename p))
  | l :: ls =>
      match optional_highlight_outcome w with
      | Returns _ => Returns (l :: ls)
      | Raises e => Raises e
      end
  end.
Proof.
  unfold find_all. rewrite result_bind. cbn [result call snd].
  destruct (match_template w p region MULTIPLE) as [|l ls]; [reflexivity|].
  cbn [length Nat.ltb Nat.leb].
  rewrite result_bind, optional_highlight_result.
  destruct (optional_highlight_outcome w); reflexivity.
Qed.


(** The equality of the first locations cannot be left out of what follows:
    a matcher that gives the best match in [SINGLE] mode and every match in
    scan order in [MULTIPLE] mode makes [find] return (100, 100) where the
    sequence of [find_all] starts with (10, 10). *)
Example find_and_find_all_on_a_matcher_with_two_orderings :
  result (find (Sample.two_matches false) (VPattern Sample.button)
            (Some Sample.area))
    = Returns (Some (mkLocation 100 100))
  /\ result (find_all (Sample.two_matches false) Sample.button (Some Sample.area))
     = Returns [mkLocation 10 10; mkLocation 100 100].
Proof. split; reflexivity. Qed.



(** ** Waiting for a target *)

Lemma verify_effective_timeout (w : Env) (ps : value) (timeout : option Q)
    (region : option Rectangle) :
  verify w ps timeout region
    = verify w ps (Some (effective_timeout w timeout)) region.
Proof. destruct ps, timeout; reflexivity. Qed.

Lemma try_except_FindError_result {A} (m : M A) (a b : bool) :
  result (try_except_FindError (m ;; ret a) (ret b)) =
  match result m with
  | Returns _ => Returns a
  | Raises (FindError _) => Returns b
  | Raises e => Raises e
  end.
Proof. destruct m as [t [x|[]]]; reflexivity. Qed.

Lemma try_except_FindError_calls {A} (m : M A) (a b : bool) :
  calls (try_except_FindError (m ;; ret a) (ret b)) = calls m.
Proof.
  destruct m as [t [x|[]]]; unfold calls; simpl; rewrite ?app_nil_r;
    reflexivity.
Qed.

Lemma exists_result (w : Env) (ps : value) (timeout : option Q)
    (region : option Rectangle) :
  result (exists_ w ps timeout region) =
  match result (verify w ps timeout region) with
  | Returns _ => Returns true
  | Raises (FindError _) => Returns false
  | Raises e => Raises e
  end.
Proof.
  unfold exists_. rewrite try_except_FindError_result.
  rewrite (verify_effective_timeout w ps timeout). reflexivity.
Qed.

(** C2: [exists] returns False exactly when [verify], on the same
    arguments, raises FindError; it returns True exactly when [verify]
    returns; an error of [verify] that is not a FindError is the error of
    [exists], and [exists] raises nothing else, so never a FindError. *)
Theorem exists_converts_FindError_of_verify
    (w : Env) (ps : value) (timeout : option Q) (region : option Rectangle) :
  (result (exists_ w ps timeout region) = Returns false <->
     exists msg, result (verify w ps timeout region) = Raises (FindError msg))
  /\ (result (exists_ w ps timeout region) = Returns true <->
        exists b, result (verify w ps timeout region) = Returns b)
  /\ (forall e, result (exists_ w ps timeout region) = Raises e <->
                is_FindError e = false
                /\ result (verify w ps timeout region) = Raises e).
Proof.
  rewrite exists_result.
  destruct (result (verify w ps timeout region)) as [b|[m|m|m|m|m|m]].
  all: split; [|split]; [split | split | intros e; split].
  all: repeat match goal with
         | |- _ -> _ => intro
         | H : exists _, _ |- _ => destruct H
         | H : _ /\ _ |- _ => destruct H
         | H : Raises _ = Raises _ |- _ => inversion H; clear H; subst
         end.
  all: cbn in *; try discriminate; try reflexivity; eauto.
Qed.

Lemma exists_converts_FindError_of_verify_witness :
  result (exists_ Sample.blank (VPattern Sample.button) (Some (1 # 1)) None)
    = Returns false
  /\ result (exists_ Sample.blank (VInt 3) None None)
    = Raises (ValueError "Invalid input").
Proof.
  destruct (exists_converts_FindError_of_verify
              Sample.blank (VPattern Sample.button) (Some (1 # 1)) None)
    as (NotFound & _ & _).
  destruct (exists_converts_FindError_of_verify Sample.blank (VInt 3) None None)
    as (_ & _ & Other).
  split.
  - apply NotFound. eexists. reflexivity.
  - apply Other. split; reflexivity.
Defined.

(** C4: on an argument that is neither a Pattern nor a string [verify]
    raises ValueError, whatever the timeout and the region, and so no
    FindError; it does so before any collaborator is called. *)
Theorem verify_raises_ValueError_on_other_types
    (w : Env) (ps : value) (timeout : option Q) (region : option Rectangle) :
  isinstance_Pattern ps = false ->
  isinstance_str ps = false ->
  result (verify w ps timeout region) = Raises (ValueError "Invalid input")
  /\ (forall msg, result (verify w ps timeout region) <> Raises (FindError msg))
  /\ calls (verify w ps timeout region) = [].
Proof.
  intros NP NS.
  destruct ps; try discriminate; repeat split; discriminate.
Qed.

Lemma verify_raises_ValueError_on_other_types_witness :
  result (verify Sample.blank (VList [VPattern Sample.button]) (Some (5 # 1))
            (Some Sample.area))
  = Raises (ValueError "Invalid input").
Proof.
  apply (verify_raises_ValueError_on_other_types Sample.blank
           (VList [VPattern Sample.button]) (Some (5 # 1)) (Some Sample.area));
    reflexivity.
Defined.

(** C5: [wait_vanish] polls once, with the timeout it was given (the
    configured one when omitted); it returns True exactly when the poll
    reports that the pattern vanished, and otherwise raises a FindError
    whose message holds the pattern's filename. *)
Theorem wait_vanish_returns_True_or_raises_FindError
    (w : Env) (p : Pattern) (timeout : option Q) (region : option Rectangle) :
  calls (wait_vanish w p timeout region)
    = [Eimage_vanish p (effective_timeout w timeout) region]
  /\ (result (wait_vanish w p timeout region) = Returns true <->
        image_vanish w p (effective_timeout w timeout) region <> None)
  /\ (image_vanish w p (effective_timeout w timeout) region = None ->
        result (wait_vanish w p timeout region)
          = Raises (FindError (get_filename p ++ " did not vanish"))
        /\ raises_FindError_naming (get_filename p)
             (result (wait_vanish w p timeout region))).
Proof.
  unfold wait_vanish, effective_timeout.
  destruct (image_vanish w p _ region) as [v|]; cbn.
  - repeat split; try discriminate.
  - split; [reflexivity|]. split.
    + split; [discriminate | intros H; now elim H].
    + intros _. split; [reflexivity|].
      eexists. split; [reflexivity|].
      apply (contains_app "" (get_filename p) " did not vanish").
Qed.

Lemma wait_vanish_returns_True_or_raises_FindError_witness :
  result (wait_vanish (Sample.two_matches false) Sample.button (Some (5 # 1))
            (Some Sample.area))
    = Returns true
  /\ raises_FindError_naming "button.png"
       (result (wait_vanish Sample.blank Sample.button None None)).
Proof.
  destruct (wait_vanish_returns_True_or_raises_FindError
              (Sample.two_matches false) Sample.button (Some (5 # 1))
              (Some Sample.area)) as (_ & Gone & _).
  destruct (wait_vanish_returns_True_or_raises_FindError
              Sample.blank Sample.button None None) as (_ & _ & Stays).
  split.
  - apply Gone. discriminate.
  - apply Stays. reflexivity.
Defined.

(** C6: with the timeout omitted, [verify] on a Pattern, [exists] and
    [wait_vanish] run as they do when [Settings.auto_wait_timeout] is
    passed, and the blocking matcher call, the first call each of them
    makes, carries that value. *)
Theorem omitted_timeout_is_Settings_auto_wait_timeout
    (w : Env) (p : Pattern) (ps : value) (region : option Rectangle) :
  verify w (VPattern p) None region
    = verify w (VPattern p) (Some (auto_wait_timeout w)) region
  /\ hd_error (calls (verify w (VPattern p) None region))
     = Some (Eimage_find p (auto_wait_timeout w) region)
  /\ exists_ w ps None region
     = exists_ w ps (Some (auto_wait_timeout w)) region
  /\ hd_error (calls (exists_ w (VPattern p) None region))
     = Some (Eimage_find p (auto_wait_timeout w) region)
  /\ wait_vanish w p None region
     = wait_vanish w p (Some (auto_wait_timeout w)) region
  /\ calls (wait_vanish w p None region)
     = [Eimage_vanish p (auto_wait_timeout w) region].
Proof.
  assert (V : hd_error (calls (verify w (VPattern p)
                                 (Some (auto_wait_timeout w)) region))
              = Some (Eimage_find p (auto_wait_timeout w) region)).
  { unfold verify. rewrite calls_bind. cbn [result call snd calls fst].
    reflexivity. }
  repeat split.
  - exact V.
  - unfold exists_. rewrite try_except_FindError_calls. exact V.
  - unfold wait_vanish. rewrite calls_bind. cbn [result call snd calls fst].
    destruct (image_vanish w p (auto_wait_timeout w) region); reflexivity.
Qed.

(** ** Text targets *)

(** C9: for a string, [find] falls past its Pattern test: it calls no
    collaborator, raises nothing and returns None. *)
Theorem find_returns_None_for_a_string
    (w : Env) (s : string) (region : option Rectangle) :
  result (find w (VStr s) region) = Returns None
  /\ calls (find w (VStr s) region) = [].
Proof. split; reflexivity. Qed.

(** C10: for a string, [verify] does not read its timeout: two runs that
    differ only in the timeout are the same run, whose one call, the text
    search, is made with the string, True and the region. *)
Theorem verify_ignores_timeout_for_a_string
    (w : Env) (s : string) (t1 t2 : option Q) (region : option Rectangle) :
  verify w (VStr s) t1 region = verify w (VStr s) t2 region
  /\ calls (verify w (VStr s) t1 region) = [Etext_search s true region].
Proof.
  split; [reflexivity|].
  unfold verify. rewrite calls_bind. cbn [result call snd calls fst].
  destruct (text_search w s true region); reflexivity.
Qed.

(** * Further properties of the finder *)

(** ** Logs *)

Lemma calls_bind_ret {A B} (m : M A) (b : B) : calls (m ;; ret b) = calls m.
Proof.
  destruct m as [t [a|e]]; unfold calls; simpl; rewrite ?app_nil_r; reflexivity.
Qed.

Lemma result_bind_ret {A B} (m : M A) (b : B) :
  result (m ;; ret b) =
  match result m with Returns _ => Returns b | Raises e => Raises e end.
Proof. destruct m as [t [a|e]]; reflexivity. Qed.

Lemma find_calls (w : Env) (p : Pattern) (region : option Rectangle) :
  calls (find w (VPattern p) region) =
  Ematch_template p region SINGLE ::
  match match_template w p region SINGLE with
  | [] => []
  | ls =>
      if args_highlight w
      then calls (highlight w region None None (Some p) (LSeq ls))
      else []
  end.
Proof.
  unfold find. rewrite calls_bind. cbn [result call snd calls fst app].
  f_equal.
  destruct (match_template w p region SINGLE) as [|l ls]; [reflexivity|].
  cbn [length Nat.ltb Nat.leb nth_error].
  change (fst ?m) with (calls m).
  rewrite calls_bind_ret. destruct (args_highlight w); reflexivity.
Qed.

Lemma find_all_calls (w : Env) (p : Pattern) (region : option Rectangle) :
  calls (find_all w p region) =
  Ematch_template p region MULTIPLE ::
  match match_template w p region MULTIPLE with
  | [] => []
  | ls =>
      if args_highlight w
      then calls (highlight w region None None (Some p) (LSeq ls))
      else []
  end.
Proof.
  unfold find_all. rewrite calls_bind. cbn [result call snd calls fst app].
  f_equal.
  destruct (match_template w p region MULTIPLE) as [|l ls]; [reflexivity|].
  cbn [length Nat.ltb Nat.leb].
  change (fst ?m) with (calls m).
  rewrite calls_bind_ret. destruct (args_highlight w); reflexivity.
Qed.

Lemma verify_Pattern_result (w : Env) (p : Pattern) (timeout : option Q)
    (region : option Rectangle) :
  result (verify w (VPattern p) timeout region) =
  match image_find w p (effective_timeout w timeout) region with
  | None => Raises (FindError ("Unable to find image " ++ get_filename p))
  | Some l =>
      if args_highlight w then
        match iter_Location w l with
        | Returns _ =>
            match result (time_sleep (highlight_duration w)) with
            | Returns _ => Returns true
            | Raises e => Raises e
            end
        | Raises e => Raises e
        end
      else Returns true
  end.
Proof.
  unfold verify. rewrite result_bind. cbn [result call snd].
  fold (effective_timeout w timeout).
  destruct (image_find w p (effective_timeout w timeout) region) as [l|];
    [|reflexivity].
  rewrite result_bind_ret.
  destruct (args_highlight w); [|reflexivity].
  rewrite highlight_result. unfold iterate, effective_seconds.
  change (result ([], iter_Location w l)) with (iter_Location w l).
  destruct (iter_Location w l); reflexivity.
Qed.

Lemma verify_Pattern_calls (w : Env) (p : Pattern) (timeout : option Q)
    (region : option Rectangle) :
  calls (verify w (VPattern p) timeout region) =
  Eimage_find p (effective_timeout w timeout) region ::
  match image_find w p (effective_timeout w timeout) region with
  | None => []
  | Some l =>
      if args_highlight w
      then calls (highlight w region None None (Some p) (LOne l))
      else []
  end.
Proof.
  unfold verify. rewrite calls_bind. cbn [result call snd calls fst app].
  fold (effective_timeout w timeout). f_equal.
  destruct (image_find w p (effective_timeout w timeout) region) as [l|];
    [|reflexivity].
  change (fst ?m) with (calls m).
  rewrite calls_bind_ret. destruct (args_highlight w); reflexivity.
Qed.

Lemma verify_str_result (w : Env) (s : string) (timeout : option Q)
    (region : option Rectangle) :
  result (verify w (VStr s) timeout region) =
  match text_search w s true region with
  | Some _ => Returns true
  | None => Raises (FindError ("Unable to find text " ++ s))
  end.
Proof.
  unfold verify. rewrite result_bind. cbn [result call snd].
  destruct (text_search w s true region); reflexivity.
Qed.

Lemma screen_calls_app (l1 l2 : list event) :
  screen_calls (l1 ++ l2)%list = (screen_calls l1 ++ screen_calls l2)%list.
Proof. apply filter_app. Qed.

Lemma screen_calls_region_events (w : Env) (region : option Rectangle)
    (c : Color) :
  screen_calls (region_events w region c) = [].
Proof. destruct region; reflexivity. Qed.

Lemma screen_calls_match_events (p : Pattern) (c : Color) (ls : list Location) :
  screen_calls (match_events p c ls) = [].
Proof. induction ls as [|l ls IH]; [reflexivity | exact IH]. Qed.

Lemma screen_calls_highlight (w : Env) (region : option Rectangle)
    (seconds : option Q) (color : option Color) (pattern : option Pattern)
    (location : location_arg) :
  screen_calls (calls (highlight w region seconds color pattern location)) = [].
Proof.
  assert (Tail : forall s, screen_calls (Erender s :: calls (time_sleep s)) = []).
  { intros s. rewrite time_sleep_calls. destruct (sleep_accepts s); reflexivity. }
  rewrite highlight_run. cbv zeta.
  destruct pattern as [p|];
    [destruct (result (iterate w location)) as [ls|e]|];
    unfold calls; cbn [fst];
    change (EScreenHighlight :: region_events w region ?c)
      with ([EScreenHighlight] ++ region_events w region c)%list;
    rewrite ?screen_calls_app, ?screen_calls_region_events,
      ?screen_calls_match_events, ?Tail; reflexivity.
Qed.

(** ** Waiting for a Pattern or a text *)

(** X1: when the wait for a Pattern ends without a match, [verify] raises
    a FindError whose message holds the pattern's filename, and the one
    call it made is the wait: no overlay is drawn, highlighting on or off. *)
Theorem verify_raises_FindError_naming_the_Pattern
    (w : Env) (p : Pattern) (timeout : option Q) (region : option Rectangle) :
  image_find w p (effective_timeout w timeout) region = None ->
  result (verify w (VPattern p) timeout region)
    = Raises (FindError ("Unable to find image " ++ get_filename p))
  /\ raises_FindError_naming (get_filename p)
       (result (verify w (VPattern p) timeout region))
  /\ calls (verify w (VPattern p) timeout region)
     = [Eimage_find p (effective_timeout w timeout) region].
Proof.
  intros E.
  assert (R : result (verify w (VPattern p) timeout region)
              = Raises (FindError ("Unable to find image " ++ get_filename p))).
  { rewrite verify_Pattern_result, E. reflexivity. }
  split; [exact R|]. split.
  - eexists. split; [exact R | apply contains_suffix].
  - rewrite verify_Pattern_calls, E. reflexivity.
Qed.

Lemma verify_raises_FindError_naming_the_Pattern_witness :
  raises_FindError_naming "button.png"
    (result (verify Sample.blank (VPattern Sample.button) (Some (1 # 1))
               (Some Sample.area))).
Proof.
  apply (verify_raises_FindError_naming_the_Pattern Sample.blank Sample.button
           (Some (1 # 1)) (Some Sample.area)).
  reflexivity.
Defined.

(** X2: for a text, [verify] returns True exactly when the text search
    finds it; when the search finds nothing it raises a FindError whose
    message holds the text. *)
Theorem verify_text_returns_True_or_raises_FindError_naming_the_text
    (w : Env) (s : string) (timeout : option Q) (region : option Rectangle) :
  (result (verify w (VStr s) timeout region) = Returns true <->
     text_search w s true region <> None)
  /\ (text_search w s true region = None ->
        result (verify w (VStr s) timeout region)
          = Raises (FindError ("Unable to find text " ++ s))
        /\ raises_FindError_naming s
             (result (verify w (VStr s) timeout region))).
Proof.
  rewrite verify_str_result.
  destruct (text_search w s true region) as [l|].
  - split; [split; [discriminate | reflexivity] | discriminate].
  - split.
    + split; [discriminate | intros H; now elim H].
    + intros _. split; [reflexivity|].
      eexists. split; [reflexivity | apply contains_suffix].
Qed.

Lemma verify_text_returns_True_or_raises_FindError_naming_the_text_witness :
  result (verify (Sample.two_matches false) (VStr "Save") None None)
    = Returns true
  /\ raises_FindError_naming "Save"
       (result (verify Sample.blank (VStr "Save") None None)).
Proof.
  destruct (verify_text_returns_True_or_raises_FindError_naming_the_text
              (Sample.two_matches false) "Save" None None) as (Found & _).
  destruct (verify_text_returns_True_or_raises_FindError_naming_the_text
              Sample.blank "Save" None None) as (_ & Missing).
  split.
  - apply Found. discriminate.
  - apply Missing. reflexivity.
Defined.

(** X3: [verify] and [wait_vanish] never return False: each returns True
    or raises. *)
Theorem verify_and_wait_vanish_never_return_False
    (w : Env) (ps : value) (p : Pattern) (timeout : option Q)
    (region : option Rectangle) :
  result (verify w ps timeout region) <> Returns false
  /\ result (wait_vanish w p timeout region) <> Returns false.
Proof.
  split.
  - destruct ps; try discriminate.
    + rewrite verify_str_result.
      destruct (text_search w s true region); discriminate.
    + rewrite verify_Pattern_result.
      destruct (image_find w p0 _ region); [|discriminate].
      destruct (args_highlight w); [|discriminate].
      destruct (iter_Location w l); [|discriminate].
      destruct (result (time_sleep (highlight_duration w))); discriminate.
  - unfold wait_vanish. rewrite result_bind. cbn [result call snd].
    destruct (image_vanish w p _ region); discriminate.
Qed.

Lemma verify_and_wait_vanish_never_return_False_witness :
  result (verify Sample.blank (VPattern Sample.button) None None)
    <> Returns false
  /\ result (wait_vanish Sample.blank Sample.button None None) <> Returns false.
Proof.
  exact (verify_and_wait_vanish_never_return_False Sample.blank
           (VPattern Sample.button) Sample.button None None).
Defined.

(** X4: the calls [exists] makes are the calls [verify] makes on the same
    arguments, in the same order: catching the FindError adds none. *)
Theorem exists_makes_the_calls_of_verify
    (w : Env) (ps : value) (timeout : option Q) (region : option Rectangle) :
  calls (exists_ w ps timeout region) = calls (verify w ps timeout region).
Proof.
  unfold exists_. rewrite try_except_FindError_calls.
  fold (effective_timeout w timeout).
  rewrite <- verify_effective_timeout. reflexivity.
Qed.

(** X5: for a text, [exists] never raises: it returns whether the text
    search found the text.  For a Pattern, with highlighting off, it never
    raises either: it returns whether the wait found the pattern. *)
Theorem exists_answers_without_raising
    (w : Env) (timeout : option Q) (region : option Rectangle) :
  (forall s, result (exists_ w (VStr s) timeout region)
             = Returns (is_Some (text_search w s true region)))
  /\ (args_highlight w = false ->
      forall p, result (exists_ w (VPattern p) timeout region)
                = Returns (is_Some (image_find w p (effective_timeout w timeout)
                                      region))).
Proof.
  split.
  - intros s. rewrite exists_result, verify_str_result.
    destruct (text_search w s true region); reflexivity.
  - intros Off p. rewrite exists_result, verify_Pattern_result, Off.
    destruct (image_find w p _ region); reflexivity.
Qed.

Lemma exists_answers_without_raising_witness :
  result (exists_ (Sample.two_matches false) (VPattern Sample.button) None None)
  = Returns true.
Proof.
  destruct (exists_answers_without_raising (Sample.two_matches false) None None)
    as (_ & OnPattern).
  apply (OnPattern eq_refl Sample.button).
Defined.

(** X6: with highlighting on, a pattern that was found, and a Location
    whose iteration raises, [verify] raises that error instead of returning
    True: it hands the one Location of the wait to the loop of [highlight].
    Unless the error is a FindError, [exists] raises it too. *)
Theorem verify_raises_on_a_found_Pattern_when_the_Location_cannot_be_iterated
    (w : Env) (p : Pattern) (timeout : option Q) (region : option Rectangle)
    (l : Location) (e : exn) :
  args_highlight w = true ->
  image_find w p (effective_timeout w timeout) region = Some l ->
  iter_Location w l = Raises e ->
  result (verify w (VPattern p) timeout region) = Raises e
  /\ (is_FindError e = false ->
      result (exists_ w (VPattern p) timeout region) = Raises e).
Proof.
  intros On Found Iter.
  assert (R : result (verify w (VPattern p) timeout region) = Raises e).
  { rewrite verify_Pattern_result, Found, On, Iter. reflexivity. }
  split; [exact R|].
  intros NF. rewrite exists_result, R. destruct e; try reflexivity.
  discriminate NF.
Qed.

Lemma verify_raises_on_a_found_Pattern_when_the_Location_cannot_be_iterated_witness :
  result (verify (Sample.one_match true (2 # 1)) (VPattern Sample.button) None
            (Some Sample.area))
  = Raises (TypeError "'Location' object is not iterable").
Proof.
  apply (verify_raises_on_a_found_Pattern_when_the_Location_cannot_be_iterated
           (Sample.one_match true (2 # 1)) Sample.button None (Some Sample.area)
           (mkLocation 100 100)
           (TypeError "'Location' object is not iterable"));
    reflexivity.
Defined.

(** ** Looking once *)

(** X7: [find] returns None for every argument that is not a Pattern (a
    number, None, a list, a Location), as it does for a string: it raises
    nothing and calls no collaborator, where [verify] raises ValueError. *)
Theorem find_returns_None_for_every_other_argument
    (w : Env) (ps : value) (region : option Rectangle) :
  isinstance_Pattern ps = false ->
  find w ps region = ([], Returns None).
Proof. intros NP. destruct ps; try reflexivity. discriminate NP. Qed.

Lemma find_returns_None_for_every_other_argument_witness :
  find Sample.blank (VInt 42) (Some Sample.area) = ([], Returns None)
  /\ result (verify Sample.blank (VInt 42) None (Some Sample.area))
     = Raises (ValueError "Invalid input").
Proof.
  split.
  - apply find_returns_None_for_every_other_argument. reflexivity.
  - reflexivity.
Defined.





(** X10: with highlighting on and a [Settings.highlight_duration] that is
    negative and fits the 64-bit count of nanoseconds of [time.sleep],
    [find] and [find_all] raise ValueError on a pattern that is on the
    screen: the error of the highlight replaces the result. *)
Theorem find_and_find_all_raise_ValueError_on_a_negative_highlight_duration
    (w : Env) (p : Pattern) (region : option Rectangle) :
  args_highlight w = true ->
  (highlight_duration w < 0)%Q ->
  fits_PyTime (highlight_duration w) = true ->
  (match_template w p region SINGLE <> [] ->
     result (find w (VPattern p) region)
       = Raises (ValueError "sleep length must be non-negative"))
  /\ (match_template w p region MULTIPLE <> [] ->
        result (find_all w p region)
          = Raises (ValueError "sleep length must be non-negative")).
Proof.
  intros On Neg Fits.
  assert (O : optional_highlight_outcome w
              = Raises (ValueError "sleep length must be non-negative")).
  { unfold optional_highlight_outcome.
    rewrite On, time_sleep_result, Fits, (negative_is_not_accepted _ Neg).
    reflexivity. }
  rewrite find_result, find_all_result, O.
  split; intros NE.
  - destruct (match_template w p region SINGLE); [now elim NE | reflexivity].
  - destruct (match_template w p region MULTIPLE); [now elim NE | reflexivity].
Qed.

Lemma find_and_find_all_raise_ValueError_on_a_negative_highlight_duration_witness :
  result (find (Sample.one_match true (-1 # 1)) (VPattern Sample.button) None)
    = Raises (ValueError "sleep length must be non-negative")
  /\ result (find_all (Sample.one_match true (-1 # 1)) Sample.button None)
    = Raises (ValueError "sleep length must be non-negative").
Proof.
  destruct (find_and_find_all_raise_ValueError_on_a_negative_highlight_duration
              (Sample.one_match true (-1 # 1)) Sample.button None)
    as (F & FA); [reflexivity | reflexivity | reflexivity |].
  split; [apply F | apply FA]; discriminate.
Defined.

(** ** What is drawn, and when *)

(** X11: without highlighting, [find], [find_all] and [verify] on a Pattern
    make one call each, to the matcher, and draw nothing; and whatever the
    highlighting, nothing is drawn when nothing was found. *)
Theorem nothing_is_drawn_without_highlighting_or_without_a_match
    (w : Env) (p : Pattern) (timeout : option Q) (region : option Rectangle) :
  (args_highlight w = false \/ match_template w p region SINGLE = [] ->
     calls (find w (VPattern p) region) = [Ematch_template p region SINGLE])
  /\ (args_highlight w = false \/ match_template w p region MULTIPLE = [] ->
        calls (find_all w p region) = [Ematch_template p region MULTIPLE])
  /\ (args_highlight w = false
      \/ image_find w p (effective_timeout w timeout) region = None ->
        calls (verify w (VPattern p) timeout region)
          = [Eimage_find p (effective_timeout w timeout) region]).
Proof.
  rewrite find_calls, find_all_calls, verify_Pattern_calls.
  split; [|split]; intros [Off|Empty]; rewrite ?Off, ?Empty; try reflexivity.
  - destruct (match_template w p region SINGLE); reflexivity.
  - destruct (match_template w p region MULTIPLE); reflexivity.
  - destruct (image_find w p _ region); reflexivity.
Qed.

Lemma nothing_is_drawn_without_highlighting_or_without_a_match_witness :
  calls (find (Sample.two_matches false) (VPattern Sample.button) None)
    = [Ematch_template Sample.button None SINGLE]
  /\ calls (find_all Sample.blank Sample.button None)
    = [Ematch_template Sample.button None MULTIPLE].
Proof.
  destruct (nothing_is_drawn_without_highlighting_or_without_a_match
              (Sample.two_matches false) Sample.button None None) as (F & _).
  destruct (nothing_is_drawn_without_highlighting_or_without_a_match
              Sample.blank Sample.button None None) as (_ & FA & _).
  split.
  - apply F. left. reflexivity.
  - apply FA. right. reflexivity.
Defined.

(** X12: [highlight] draws the rectangle of the region, when one is given,
    and then one rectangle per location, in the order of the sequence, each
    at its location with the size of the Pattern and in the colour in use;
    without a Pattern the locations are not drawn.  This holds whatever the
    duration: the drawing comes before the sleep. *)
Theorem highlight_draws_the_region_and_one_rectangle_per_Location
    (w : Env) (region : option Rectangle) (seconds : option Q)
    (color : option Color) (p : Pattern) (ls : list Location)
    (location : location_arg) :
  drawn (calls (highlight w region seconds color (Some p) (LSeq ls)))
    = (region_rectangle region (effective_color w color)
       ++ match_rectangles p (effective_color w color) ls)%list
  /\ length (drawn (calls (highlight w region seconds color (Some p) (LSeq ls))))
     = (length (region_rectangle region (effective_color w color)) + length ls)%nat
  /\ drawn (calls (highlight w region seconds color None location))
     = region_rectangle region (effective_color w color).
Proof.
  split; [apply drawn_highlight|]. split.
  - rewrite drawn_highlight, length_app. unfold match_rectangles.
    rewrite length_map. reflexivity.
  - rewrite highlight_run. cbv zeta. rewrite time_sleep_calls.
    unfold calls. cbn [fst].
    change (EScreenHighlight :: region_events w region ?c)
      with ([EScreenHighlight] ++ region_events w region c)%list.
    rewrite !drawn_app, drawn_region_events.
    destruct (sleep_accepts _); cbn [drawn app]; rewrite app_nil_r;
      reflexivity.
Qed.

(** X13: with highlighting on, [find] draws every location of the matcher's
    SINGLE result, not only the one it returns, and [find_all] every
    location of the MULTIPLE result: after the rectangle of the region, one
    rectangle per match, of the size of the Pattern, in
    [Settings.highlight_color]. *)
Theorem find_and_find_all_draw_every_match
    (w : Env) (p : Pattern) (region : option Rectangle) :
  args_highlight w = true ->
  (match_template w p region SINGLE <> [] ->
     drawn (calls (find w (VPattern p) region))
       = (region_rectangle region (highlight_color w)
          ++ match_rectangles p (highlight_color w)
               (match_template w p region SINGLE))%list)
  /\ (match_template w p region MULTIPLE <> [] ->
        drawn (calls (find_all w p region))
          = (region_rectangle region (highlight_color w)
             ++ match_rectangles p (highlight_color w)
                  (match_template w p region MULTIPLE))%list).
Proof.
  intros On. rewrite find_calls, find_all_calls, On.
  split; intros NE.
  - destruct (match_template w p region SINGLE) as [|l ls]; [now elim NE|].
    cbn [drawn]. apply (drawn_highlight w region None None (Some p)).
  - destruct (match_template w p region MULTIPLE) as [|l ls]; [now elim NE|].
    cbn [drawn]. apply (drawn_highlight w region None None (Some p)).
Qed.

Lemma find_and_find_all_draw_every_match_witness :
  drawn (calls (find_all (Sample.two_matches true) Sample.button
                  (Some Sample.area)))
  = [mkHighlightRectangle 0 0 800 600 "#ff0000";
     mkHighlightRectangle 10 10 40 20 "#ff0000";
     mkHighlightRectangle 100 100 40 20 "#ff0000"].
Proof.
  destruct (find_and_find_all_draw_every_match
              (Sample.two_matches true) Sample.button (Some Sample.area))
    as (_ & FA); [reflexivity|].
  apply FA. discriminate.
Defined.

(** X14: when [highlight] returns, its log ends with the rendering and then
    the sleep, both for the duration in use, and nothing before them renders
    or sleeps: everything is drawn first, the overlay is shown once, and the
    caller is held for as long as it is shown. *)
Theorem highlight_renders_once_and_then_sleeps
    (w : Env) (region : option Rectangle) (seconds : option Q)
    (color : option Color) (pattern : option Pattern) (location : location_arg) :
  result (highlight w region seconds color pattern location) = Returns tt ->
  exists before,
    calls (highlight w region seconds color pattern location)
      = (before ++ [Erender (effective_seconds w seconds);
                    Esleep (effective_seconds w seconds)])%list
    /\ forall ev, In ev before ->
                  match ev with Erender _ | Esleep _ => False | _ => True end.
Proof.
  rewrite highlight_run. cbv zeta. rewrite time_sleep_calls.
  destruct pattern as [p|].
  - destruct (result (iterate w location)) as [ls|e];
      unfold result at 1, calls; cbn [fst snd]; [|discriminate].
    intros T. apply time_sleep_returns in T. rewrite T.
    exists (EScreenHighlight :: region_events w region (effective_color w color)
              ++ match_events p (effective_color w color) ls)%list.
    split.
    + cbn [app]. rewrite <- app_assoc. reflexivity.
    + intros ev [<-|H]; [exact I|].
      apply in_app_or in H. destruct H as [H|H].
      * eapply region_events_neither_render_nor_sleep; eassumption.
      * eapply match_events_neither_render_nor_sleep; eassumption.
  - unfold result at 1, calls. cbn [fst snd].
    intros T. apply time_sleep_returns in T. rewrite T.
    exists (EScreenHighlight :: region_events w region (effective_color w color)).
    split; [reflexivity|].
    intros ev [<-|H]; [exact I|].
    eapply region_events_neither_render_nor_sleep; eassumption.
Qed.

Lemma highlight_renders_once_and_then_sleeps_witness :
  exists before,
    calls (highlight Sample.blank (Some Sample.area) (Some (1 # 2)) None
             (Some Sample.button) (LSeq [mkLocation 5 5]))
      = (before ++ [Erender (1 # 2); Esleep (1 # 2)])%list
    /\ forall ev, In ev before ->
                  match ev with Erender _ | Esleep _ => False | _ => True end.
Proof.
  apply (highlight_renders_once_and_then_sleeps Sample.blank (Some Sample.area)
           (Some (1 # 2)) None (Some Sample.button) (LSeq [mkLocation 5 5])).
  reflexivity.
Defined.

(** X15: with a duration that is negative and fits the 64-bit count of
    nanoseconds of [time.sleep], and arguments that are otherwise valid,
    [highlight] raises ValueError only after it has drawn and rendered the
    overlay: the rendering is its last call, and it does not sleep. *)
Theorem highlight_renders_before_it_refuses_a_negative_duration
    (w : Env) (region : option Rectangle) (seconds : option Q)
    (color : option Color) (pattern : option Pattern) (ls : list Location) :
  (effective_seconds w seconds < 0)%Q ->
  fits_PyTime (effective_seconds w seconds) = true ->
  result (highlight w region seconds color pattern (LSeq ls))
    = Raises (ValueError "sleep length must be non-negative")
  /\ (exists before,
        calls (highlight w region seconds color pattern (LSeq ls))
          = (before ++ [Erender (effective_seconds w seconds)])%list
        /\ forall ev, In ev before ->
                      match ev with Erender _ | Esleep _ => False | _ => True end).
Proof.
  intros Neg Fits.
  pose proof (negative_is_not_accepted _ Neg) as B.
  split.
  - rewrite highlight_result, time_sleep_result, Fits, B.
    destruct pattern; reflexivity.
  - rewrite highlight_calls. unfold sleep_accepts. rewrite Fits, B.
    cbn [andb].
    exists ((EScreenHighlight
               :: region_events w region (effective_color w color))
              ++ match pattern with
                 | Some p => match_events p (effective_color w color) ls
                 | None => []
                 end)%list.
    split.
    + rewrite <- app_assoc. reflexivity.
    + intros ev H. apply in_app_or in H. destruct H as [[<-|H]|H].
      * exact I.
      * eapply region_events_neither_render_nor_sleep; eassumption.
      * destruct pattern as [p|]; [|destruct H].
        eapply match_events_neither_render_nor_sleep; eassumption.
Qed.

Lemma highlight_renders_before_it_refuses_a_negative_duration_witness :
  result (highlight Sample.blank (Some Sample.area) (Some (-3 # 1)) None
            (Some Sample.button) (LSeq [mkLocation 5 5]))
  = Raises (ValueError "sleep length must be non-negative").
Proof.
  apply (highlight_renders_before_it_refuses_a_negative_duration Sample.blank
           (Some Sample.area) (Some (-3 # 1)) None (Some Sample.button)
           [mkLocation 5 5]); reflexivity.
Defined.

(** X16: called with a Pattern and no [location] (the default, None),
    [highlight] raises TypeError at its loop: the region, if given, has been
    drawn, nothing is rendered and the caller is not held. *)
Theorem highlight_with_a_Pattern_and_no_location_raises_TypeError
    (w : Env) (region : option Rectangle) (seconds : option Q)
    (color : option Color) (p : Pattern) :
  result (highlight w region seconds color (Some p) LNone)
    = Raises (TypeError "'NoneType' object is not iterable")
  /\ calls (highlight w region seconds color (Some p) LNone)
     = EScreenHighlight :: region_events w region (effective_color w color)
  /\ (forall s, ~ In (Erender s)
                    (calls (highlight w region seconds color (Some p) LNone)))
  /\ (forall s, ~ In (Esleep s)
                    (calls (highlight w region seconds color (Some p) LNone))).
Proof.
  rewrite highlight_run. cbv zeta. unfold result, calls, iterate, raise.
  cbn [fst snd].
  split; [reflexivity|]. split; [reflexivity|].
  split; intros s [H|H]; try discriminate;
    apply region_events_neither_render_nor_sleep in H; exact H.
Qed.

Lemma highlight_with_a_Pattern_and_no_location_raises_TypeError_witness :
  result (highlight Sample.blank (Some Sample.area) None None
            (Some Sample.button) LNone)
    = Raises (TypeError "'NoneType' object is not iterable")
  /\ ~ In (Erender (2 # 1))
         (calls (highlight Sample.blank (Some Sample.area) None None
                   (Some Sample.button) LNone)).
Proof.
  destruct (highlight_with_a_Pattern_and_no_location_raises_TypeError
              Sample.blank (Some Sample.area) None None Sample.button)
    as (R & _ & NoRender & _).
  split; [exact R | apply NoRender].
Defined.

(** ** One look at the screen *)

(** X17: every operation asks the screen exactly once, whatever the
    highlighting and whatever the answer: [find] and [find_all] make one
    template match in their mode, [verify] and [exists] one wait for the
    Pattern with the timeout in use or one text search, [wait_vanish] one
    wait for the disappearance.  Nothing is retried. *)
Theorem every_operation_asks_the_screen_once
    (w : Env) (p : Pattern) (s : string) (timeout : option Q)
    (region : option Rectangle) :
  screen_calls (calls (find w (VPattern p) region))
    = [Ematch_template p region SINGLE]
  /\ screen_calls (calls (find_all w p region))
     = [Ematch_template p region MULTIPLE]
  /\ screen_calls (calls (verify w (VPattern p) timeout region))
     = [Eimage_find p (effective_timeout w timeout) region]
  /\ screen_calls (calls (exists_ w (VPattern p) timeout region))
     = [Eimage_find p (effective_timeout w timeout) region]
  /\ screen_calls (calls (verify w (VStr s) timeout region))
     = [Etext_search s true region]
  /\ screen_calls (calls (exists_ w (VStr s) timeout region))
     = [Etext_search s true region]
  /\ screen_calls (calls (wait_vanish w p timeout region))
     = [Eimage_vanish p (effective_timeout w timeout) region].
Proof.
  assert (V : screen_calls (calls (verify w (VPattern p) timeout region))
              = [Eimage_find p (effective_timeout w timeout) region]).
  { rewrite verify_Pattern_calls.
    destruct (image_find w p _ region) as [l|]; [|reflexivity].
    destruct (args_highlight w); [|reflexivity].
    cbn [screen_calls filter is_overlay negb].
    fold (screen_calls (calls (highlight w region None None (Some p) (LOne l)))).
    rewrite screen_calls_highlight. reflexivity. }
  assert (T : screen_calls (calls (verify w (VStr s) timeout region))
              = [Etext_search s true region]).
  { unfold verify. rewrite calls_bind. cbn [result call snd calls fst].
    destruct (text_search w s true region); reflexivity. }
  assert (E : forall ps, calls (exists_ w ps timeout region)
                         = calls (verify w ps timeout region)).
  { intros ps. unfold exists_. rewrite try_except_FindError_calls.
    fold (effective_timeout w timeout).
    rewrite <- verify_effective_timeout. reflexivity. }
  rewrite !E, find_calls, find_all_calls.
  repeat split; try assumption.
  - destruct (match_template w p region SINGLE) as [|l ls]; [reflexivity|].
    destruct (args_highlight w); [|reflexivity].
    cbn [screen_calls filter is_overlay negb].
    fold (screen_calls
            (calls (highlight w region None None (Some p) (LSeq (l :: ls))))).
    rewrite screen_calls_highlight. reflexivity.
  - destruct (match_template w p region MULTIPLE) as [|l ls]; [reflexivity|].
    destruct (args_highlight w); [|reflexivity].
    cbn [screen_calls filter is_overlay negb].
    fold (screen_calls
            (calls (highlight w region None None (Some p) (LSeq (l :: ls))))).
    rewrite screen_calls_highlight. reflexivity.
  - unfold wait_vanish. rewrite calls_bind. cbn [result call snd calls fst].
    fold (effective_timeout w timeout).
    destruct (image_vanish w p _ region); reflexivity.
Qed.
